(** * The distributed-training pipeline notebook

    A shallow embedding of [notebooks/mlrun_mpijob_pipe.ipynb].  The notebook
    is a straight-line script: every cell is a computation over the notebook's
    global variables, and every call into the MLRun and Kubeflow Pipelines
    SDKs is recorded, in order, in a call log.  The body of [hvd_pipeline] is
    a computation over the list of operations that the pipeline context
    collects when the function is invoked.

    The SDKs themselves are not part of the repository.  What they return is
    taken from a [Platform] (the function database, the id given to a
    submitted run, the run database); what they do to their arguments is kept
    symbolic (a function object remembers how it was created and which
    modifiers were applied to it). *)

From Stdlib Require Import String Ascii List ZArith Bool.
From ExtLib Require Import Structures.Monad Structures.MonadState
  Structures.MonadExc Structures.MonadTrans.
From ExtLib Require Import Data.Monads.StateMonad Data.Monads.EitherMonad.
Import ListNotations.
Import MonadNotation.
Local Open Scope string_scope.
Local Open Scope monad_scope.
#[local] Existing Instance Monad_stateT.

Set Warnings "-register-all".

(** ** Python values *)

(** The values that appear in a serialized function descriptor
    (the output of [to_dict()]): strings, integers, lists and dicts. *)
Inductive pyval : Type :=
| PStr (s : string)
| PInt (z : Z)
| PList (l : list pyval)
| PDict (d : list (string * pyval)).

(** Lookup in a dict kept as an association list, first binding wins. *)
Fixpoint assoc {A : Type} (k : string) (d : list (string * A)) : option A :=
  match d with
  | [] => None
  | (k', v) :: rest => if String.eqb k k' then Some v else assoc k rest
  end.

(** [d[k]] *)
Definition item (k : string) (v : pyval) : option pyval :=
  match v with
  | PDict d => assoc k d
  | _ => None
  end.

(** [d[k1][k2]...] *)
Fixpoint item_path (ks : list string) (v : pyval) : option pyval :=
  match ks with
  | [] => Some v
  | k :: rest =>
      match item k v with
      | Some v' => item_path rest v'
      | None => None
      end
  end.

(** The exceptions a cell of this notebook can raise. *)
Inductive PyError : Type :=
| NameError (name : string)
| TypeError (name : string)
| KeyError (key : string)
| IndexError (i : nat)
| FunctionNotFound (url : string).

(** ** The SDK's object model *)

(** The two function modifiers the notebook imports from [mlrun]. *)
Inductive Modifier : Type :=
| mount_v3io
| v3io_cred.

Definition Modifier_eqb (a b : Modifier) : bool :=
  match a, b with
  | mount_v3io, mount_v3io => true
  | v3io_cred, v3io_cred => true
  | _, _ => false
  end.

(** How a function object came to be: the builder that was called and the
    arguments it was given. *)
Inductive Origin : Type :=
| FromCode (name filename image kind : string)
| FromDb (url : string) (descriptor : pyval)
| ModelServer (name filename model_class : string).

(** A function object.  [applied] lists the modifiers passed to [.apply()],
    oldest first. *)
Record Function : Type := mkFunction {
  origin : Origin;
  applied : list Modifier;
  http_workers : option Z;
  image_built : bool
}.

Definition function_name (f : Function) : option string :=
  match origin f with
  | FromCode name _ _ _ => Some name
  | ModelServer name _ _ => Some name
  | FromDb _ d =>
      match item_path ["metadata"; "name"] d with
      | Some (PStr s) => Some s
      | _ => None
      end
  end.

(** The file a function was built from, when it was built from one. *)
Definition source_file (f : Function) : option string :=
  match origin f with
  | FromCode _ filename _ _ => Some filename
  | ModelServer _ filename _ => Some filename
  | FromDb _ _ => None
  end.

(** The image named in the descriptor. *)
Definition image_of (f : Function) : option string :=
  match origin f with
  | FromCode _ _ image _ => Some image
  | ModelServer _ _ _ => None
  | FromDb _ d =>
      match item_path ["spec"; "image"] d with
      | Some (PStr s) => Some s
      | _ => None
      end
  end.

(** A run as the run database lists it. *)
Record Run : Type := mkRun {
  run_name : string;
  run_labels : list (string * string)
}.

(** An argument of a pipeline operation: a string, a number, or a reference
    to a declared output of an earlier operation.  Operations are referred
    to by their position in the pipeline. *)
Inductive Arg : Type :=
| Str (s : string)
| Int (z : Z)
| Output (op : nat) (key : string).

Inductive OpKind : Type :=
| RunOp
| DeployOp.

(** One operation of the pipeline, as [as_step] or [deploy_step] creates it
    and [.after()] / [.apply()] update it. *)
Record Step : Type := mkStep {
  op_kind : OpKind;
  step_name : option string;
  step_function : Function;
  handler : option string;
  out_path : option string;
  project : option string;
  params : list (string * Arg);
  inputs : list (string * Arg);
  outputs : list string;
  models : list (string * Arg);
  after_ops : list nat;
  step_applied : list Modifier
}.

(** The keyword parameters of [hvd_pipeline]. *)
Record PipelineArgs : Type := mkArgs {
  image_archive : string;
  images_path : string;
  source_dir : string;
  checkpoints_dir : string;
  model_path : string;
  model_name : string
}.

(** The calls into the SDKs, as the notebook makes them. *)
Inductive Call : Type :=
| CodeToFunction (name filename image kind : string)
| Apply (var : string) (m : Modifier)
| Deploy (var : string)
| Export (var target : string)
| ImportFunction (url : string)
| ToDict (var : string)
| NewModelServer (name filename model_class : string)
| WithHttp (var : string) (workers : Z)
| DslPipeline (name description : string)
| Compile (ops : list Step) (package_path : string)
| KfpClient (namespace : string)
| CreateRun (ops : list Step) (arguments : list (string * string))
    (experiment_name : string)
| Connect
| ListRuns (name labels : string)
| Show (runs : list Run).

(** What a global variable of the notebook is bound to. *)
Inductive Value : Type :=
| VStr (s : string)
| VFn (f : Function)
| VModifier (m : Modifier)
| VPipeline
| VClient (namespace : string)
| VArguments (a : list (string * string))
| VRunResult (run_id : string)
| VRunDb.

(** The external services, as far as the notebook observes them. *)
Record Platform : Type := mkPlatform {
  (* the serialized descriptor of the function stored under a URL, if any *)
  function_db : string -> option pyval;
  (* the id the pipelines service gives to the run it creates *)
  new_run_id : string;
  (* the run database's answer to list_runs(name, labels=...) *)
  run_db : string -> string -> list Run
}.

(** ** Notebook state *)

Record Notebook : Type := mkNotebook {
  globals : list (string * Value);
  calls : list Call
}.

Definition empty_notebook : Notebook := mkNotebook [] [].

Definition NB : Type -> Type := stateT Notebook (sum PyError).

Definition call (c : Call) : NB unit :=
  nb <- get ;;
  put (mkNotebook (globals nb) (calls nb ++ [c])%list).

(** Binding a variable replaces the binding it had. *)
Fixpoint unbind {A : Type} (x : string) (d : list (string * A))
    : list (string * A) :=
  match d with
  | [] => []
  | (k, v) :: rest =>
      if String.eqb x k then unbind x rest else (k, v) :: unbind x rest
  end.

Definition assign (x : string) (v : Value) : NB unit :=
  nb <- get ;;
  put (mkNotebook ((x, v) :: unbind x (globals nb)) (calls nb)).

Definition name (x : string) : NB Value :=
  nb <- get ;;
  match assoc x (globals nb) with
  | Some v => ret v
  | None => raise (NameError x)
  end.

Definition as_fn (x : string) (v : Value) : PyError + Function :=
  match v with
  | VFn f => inr f
  | _ => inl (TypeError x)
  end.

Definition as_str (x : string) (v : Value) : PyError + string :=
  match v with
  | VStr s => inr s
  | _ => inl (TypeError x)
  end.

(** A modifier is imported as a function; calling it gives the modifier. *)
Definition as_modifier (x : string) (v : Value) : PyError + Modifier :=
  match v with
  | VModifier m => inr m
  | _ => inl (TypeError x)
  end.

Definition name_fn (x : string) : NB Function :=
  v <- name x ;; lift (as_fn x v).

Definition name_modifier (x : string) : NB Modifier :=
  v <- name x ;; lift (as_modifier x v).

Definition name_str (x : string) : NB string :=
  v <- name x ;; lift (as_str x v).

(** ** The pipeline DSL *)

(** The body of a pipeline function runs inside a pipeline context that
    collects the operations in the order they are created. *)
Definition Pipe : Type -> Type := stateT (list Step) (sum PyError).

Definition add_op (s : Step) : Pipe nat :=
  ops <- get ;;
  put (ops ++ [s])%list ;;
  ret (length ops).

(** [fn.as_step(name=, handler=, out_path=, params=, inputs=, outputs=)] *)
Definition as_step (f : Function) (name : string)
    (handler out_path : option string) (params inputs : list (string * Arg))
    (outputs : list string) : Pipe nat :=
  add_op (mkStep RunOp (Some name) f handler out_path None
            params inputs outputs [] [] []).

(** [fn.deploy_step(project=, models=)] *)
Definition deploy_step (f : Function) (project : string)
    (models : list (string * Arg)) : Pipe nat :=
  add_op (mkStep DeployOp None f None None (Some project) [] [] [] models [] []).

Fixpoint update_nth {A : Type} (i : nat) (g : A -> A) (l : list A) : list A :=
  match l, i with
  | [], _ => []
  | x :: rest, O => g x :: rest
  | x :: rest, S i' => x :: update_nth i' g rest
  end.

Definition update_op (op : nat) (g : Step -> Step) : Pipe nat :=
  ops <- get ;;
  match nth_error ops op with
  | Some _ => put (update_nth op g ops) ;; ret op
  | None => raise (IndexError op)
  end.

Definition add_after (dep : nat) (s : Step) : Step :=
  mkStep (op_kind s) (step_name s) (step_function s) (handler s) (out_path s)
    (project s) (params s) (inputs s) (outputs s) (models s)
    (after_ops s ++ [dep])%list (step_applied s).

Definition add_applied (m : Modifier) (s : Step) : Step :=
  mkStep (op_kind s) (step_name s) (step_function s) (handler s) (out_path s)
    (project s) (params s) (inputs s) (outputs s) (models s)
    (after_ops s) (step_applied s ++ [m])%list.

(** [op.after(dep)] returns [op]. *)
Definition after (op dep : nat) : Pipe nat := update_op op (add_after dep).

(** [op.apply(modifier)] returns [op]. *)
Definition apply_op (op : nat) (m : Modifier) : Pipe nat :=
  update_op op (add_applied m).

(** [op.outputs[key]]: only the outputs an operation declares can be
    referred to. *)
Definition output (op : nat) (key : string) : Pipe Arg :=
  ops <- get ;;
  match nth_error ops op with
  | Some s =>
      if existsb (String.eqb key) (outputs s) then ret (Output op key)
      else raise (KeyError key)
  | None => raise (IndexError op)
  end.

(** A global variable read from inside the pipeline function. *)
Definition global_fn (g : list (string * Value)) (x : string) : Pipe Function :=
  match assoc x g with
  | Some v => lift (as_fn x v)
  | None => raise (NameError x)
  end.

Definition global_modifier (g : list (string * Value)) (x : string)
    : Pipe Modifier :=
  match assoc x g with
  | Some v => lift (as_modifier x v)
  | None => raise (NameError x)
  end.

(** [hvd_pipeline]: the three function objects and the modifier [v3io_cred]
    are globals of the notebook, looked up when the body runs, in the order
    in which the body reads them. *)
Definition hvd_pipeline (g : list (string * Value)) (a : PipelineArgs)
    : Pipe unit :=
  utilsfn <- global_fn g "utilsfn" ;;
  open_archive <- as_step utilsfn "download"
                    (Some "open_archive")
                    (Some (images_path a))
                    [("target_dir", Str (images_path a))]
                    [("archive_url", Str (image_archive a))]
                    ["content"] ;;
  utilsfn <- global_fn g "utilsfn" ;;
  label <- as_step utilsfn "label"
             (Some "categories_map_builder")
             (Some (images_path a))
             [("source_dir", Str (source_dir a))]
             []
             ["categories_map"; "file_categories"] ;;
  label <- after label open_archive ;;
  trainer_fn <- global_fn g "trainer_fn" ;;
  categories_map <- output label "categories_map" ;;
  file_categories <- output label "file_categories" ;;
  train <- as_step trainer_fn "train"
             None
             None
             [("epochs", Int 1);
              ("checkpoints_dir", Str (checkpoints_dir a));
              ("model_path", Str (model_path a));
              ("data_path", Str (source_dir a))]
             [("categories_map", categories_map);
              ("file_categories", file_categories)]
             ["model"] ;;
  cred <- global_modifier g "v3io_cred" ;;
  train <- apply_op train cred ;;
  inference_function <- global_fn g "inference_function" ;;
  model <- output train "model" ;;
  deploy <- deploy_step inference_function "nuclio-serving"
              [(model_name a, model)] ;;
  ret tt.

(** The default values of the parameters of [hvd_pipeline]. *)
Definition defaults : PipelineArgs :=
  mkArgs "http://iguazio-sample-data.s3.amazonaws.com/catsndogs.zip"
         "/User/mlrun/examples/images"
         "/User/mlrun/examples/images/cats_n_dogs"
         "/User/mlrun/examples/checkpoints"
         "/User/mlrun/examples/models/cats_n_dogs.h5"
         "cat_vs_dog_v1".

(** The parameters of a run: the defaults, overridden by the arguments
    given at submission. *)
Definition bind_arguments (arguments : list (string * string)) : PipelineArgs :=
  let pick k d := match assoc k arguments with Some v => v | None => d end in
  mkArgs (pick "image_archive" (image_archive defaults))
         (pick "images_path" (images_path defaults))
         (pick "source_dir" (source_dir defaults))
         (pick "checkpoints_dir" (checkpoints_dir defaults))
         (pick "model_path" (model_path defaults))
         (pick "model_name" (model_name defaults)).

(** The operations a pipeline function declares when it is invoked. *)
Definition pipeline_ops (g : list (string * Value)) (a : PipelineArgs)
    : PyError + list Step :=
  execStateT (hvd_pipeline g a) [].

(** ** The SDK calls of the notebook *)

(** [os.path.join(a, b)] for two components. *)
Definition ends_with_slash (s : string) : bool :=
  match String.get (String.length s - 1) s with
  | Some c => Ascii.eqb c "/"%char
  | None => false
  end.

Definition os_path_join (a b : string) : string :=
  if String.prefix "/" b then b
  else if (String.length a =? 0)%nat || ends_with_slash a then a ++ b
  else a ++ "/" ++ b.

(** [x = code_to_function(name=, filename=, image=, kind=)] *)
Definition code_to_function (x name filename image kind : string) : NB unit :=
  call (CodeToFunction name filename image kind) ;;
  assign x (VFn (mkFunction (FromCode name filename image kind) [] None false)).

(** [x = new_model_server(name, filename=, model_class=)] *)
Definition new_model_server (x name filename model_class : string) : NB unit :=
  call (NewModelServer name filename model_class) ;;
  assign x (VFn (mkFunction (ModelServer name filename model_class) [] None false)).

(** [x = import_function(url)]: raises when nothing is stored under [url]. *)
Definition import_function (P : Platform) (x url : string) : NB unit :=
  call (ImportFunction url) ;;
  match function_db P url with
  | Some d => assign x (VFn (mkFunction (FromDb url d) [] None false))
  | None => raise (FunctionNotFound url)
  end.

(** The methods below change the object a variable refers to.  No object of
    this notebook is bound to two variables, so the change is written as an
    update of the variable's binding. *)

(** [x.apply(modifier())], with [modifier] a global. *)
Definition apply (x modifier : string) : NB unit :=
  f <- name_fn x ;;
  m <- name_modifier modifier ;;
  call (Apply x m) ;;
  assign x (VFn (mkFunction (origin f) (applied f ++ [m]) (http_workers f)
                   (image_built f))).

(** [x.deploy()]: builds the function's container image. *)
Definition deploy (x : string) : NB unit :=
  f <- name_fn x ;;
  call (Deploy x) ;;
  assign x (VFn (mkFunction (origin f) (applied f) (http_workers f) true)).

(** [x.with_http(workers=n)] *)
Definition with_http (x : string) (n : Z) : NB unit :=
  f <- name_fn x ;;
  call (WithHttp x n) ;;
  assign x (VFn (mkFunction (origin f) (applied f) (Some n) (image_built f))).

(** [x.export(target)] *)
Definition export (x target : string) : NB unit :=
  _ <- name_fn x ;;
  call (Export x target).

(** [x.to_dict()] *)
Definition to_dict (x : string) : NB unit :=
  _ <- name_fn x ;;
  call (ToDict x).

(** The operations [hvd_pipeline] declares under the notebook's current
    globals. *)
Definition invoke_pipeline (a : PipelineArgs) : NB (list Step) :=
  _ <- name "hvd_pipeline" ;;
  nb <- get ;;
  lift (pipeline_ops (globals nb) a).

(** ** The cells, in the order of the notebook *)

(** Of the names cell 2 imports from [mlrun], the two modifiers are read
    as values by the later cells and by [hvd_pipeline]; the other names are
    the SDK calls defined above. *)
Definition cell_2 : NB unit :=
  assign "mount_v3io" (VModifier mount_v3io) ;;
  assign "v3io_cred" (VModifier v3io_cred) ;;
  assign "mlconf.dbpath" (VStr "http://mlrun-api:8080").

Definition cell_3 : NB unit :=
  assign "base_dir" (VStr "/User/mlrun/examples") ;;
  base_dir <- name_str "base_dir" ;;
  assign "images_path" (VStr (os_path_join base_dir "images")) ;;
  assign "model_name" (VStr "cat_vs_dog_v1").

Definition cell_4 : NB unit :=
  code_to_function "utilsfn" "file_utils" "../src/utils.py"
    "mlrun/mlrun:latest" "job" ;;
  apply "utilsfn" "mount_v3io" ;;
  deploy "utilsfn".

Definition cell_5 : NB unit :=
  export "utilsfn" "../yaml/utils.yaml".

Definition cell_6 (P : Platform) : NB unit :=
  import_function P "trainer_fn" "db://horovod-trainer" ;;
  to_dict "trainer_fn".

Definition cell_7 : NB unit :=
  new_model_server "inference_function" "tf-images-server"
    "./nuclio-serving-tf-images.ipynb" "TFModel" ;;
  with_http "inference_function" 2 ;;
  apply "inference_function" "mount_v3io".

Definition cell_9 : NB unit :=
  assign "artifacts_path" (VStr "v3io:///users/admin/mlrun/kfp/{{workflow.uid}}/").

Definition cell_10 : NB unit :=
  call (DslPipeline "Image classification training pipeline"
          "Shows how to use mlrun with horovod.") ;;
  assign "hvd_pipeline" VPipeline.

Definition cell_11 : NB unit :=
  ops <- invoke_pipeline defaults ;;
  call (Compile ops "hvd_pipeline.yaml").

Definition cell_12 (P : Platform) : NB unit :=
  call (KfpClient "default-tenant") ;;
  assign "client" (VClient "default-tenant") ;;
  assign "arguments" (VArguments []) ;;
  _ <- name "client" ;;
  arguments <- name "arguments" ;;
  match arguments with
  | VArguments a =>
      ops <- invoke_pipeline (bind_arguments a) ;;
      call (CreateRun ops a "horovod1") ;;
      assign "run_result" (VRunResult (new_run_id P))
  | _ => raise (TypeError "arguments")
  end.

Definition cell_13 : NB unit :=
  call Connect ;;
  assign "db" VRunDb.

Definition cell_14 (P : Platform) : NB unit :=
  db <- name "db" ;;
  run_result <- name "run_result" ;;
  match db, run_result with
  | VRunDb, VRunResult run_id =>
      let labels := "workflow=" ++ run_id in
      call (ListRuns "" labels) ;;
      call (Show (run_db P "" labels))
  | VRunDb, _ => raise (TypeError "run_result")
  | _, _ => raise (TypeError "db")
  end.

(** The cells that only import modules (1 and 8) bind nothing the other
    cells read as a value, and cell 15 is empty. *)
Definition notebook (P : Platform) : NB unit :=
  cell_2 ;; cell_3 ;; cell_4 ;; cell_5 ;; cell_6 P ;; cell_7 ;; cell_9 ;;
  cell_10 ;; cell_11 ;; cell_12 P ;; cell_13 ;; cell_14 P.

Definition run_notebook (P : Platform) : PyError + Notebook :=
  execStateT (notebook P) empty_notebook.

(** The value a global variable has in a notebook state. *)
Definition global (x : string) (nb : Notebook) : option Value :=
  assoc x (globals nb).

Definition global_function (x : string) (nb : Notebook) : option Function :=
  match global x nb with
  | Some (VFn f) => Some f
  | _ => None
  end.

(** ** The recorded session *)

(** The output of [trainer_fn.to_dict()] stored in the notebook (cell 6). *)
Definition trainer_fn_to_dict : pyval :=
  PDict
    [("kind", PStr "mpijob");
     ("metadata",
      PDict [("name", PStr "horovod-trainer");
             ("tag", PStr "latest");
             ("hash", PStr "ca9b2f2453afddcb69c1cc7360687249062abb96");
             ("project", PStr "default");
             ("updated", PStr "2020-02-27T16:24:48.358216")]);
     ("spec",
      PDict [("command", PStr "/User/demo-image-classification/src/horovod-training.py");
             ("args", PList []);
             ("image", PStr "mlrun/mpijob:latest");
             ("volumes",
              PList [PDict [("flexVolume",
                             PDict [("driver", PStr "v3io/fuse");
                                    ("options",
                                     PDict [("accessKey", PStr "48bfe2e0-9870-4d11-9924-b20502a85363");
                                            ("container", PStr "users");
                                            ("subPath", PStr "/admin")])]);
                            ("name", PStr "v3io")]]);
             ("volume_mounts",
              PList [PDict [("mountPath", PStr "/User"); ("name", PStr "v3io")]]);
             ("env",
              PList [PDict [("name", PStr "V3IO_API"); ("value", PStr "")];
                     PDict [("name", PStr "V3IO_USERNAME"); ("value", PStr "")];
                     PDict [("name", PStr "V3IO_ACCESS_KEY"); ("value", PStr "")]]);
             ("description", PStr "");
             ("replicas", PInt 4);
             ("image_pull_policy", PStr "Always");
             ("build", PDict [("commands", PList [])])])].

(** A label selector [key=value], split at its first [=]. *)
Fixpoint split_selector (s : string) : option (string * string) :=
  match s with
  | EmptyString => None
  | String c rest =>
      if Ascii.eqb c "="%char then Some (EmptyString, rest)
      else match split_selector rest with
           | Some (key, value) => Some (String c key, value)
           | None => None
           end
  end.

(** A run database that holds a list of runs and answers [list_runs] like
    a label filter: the empty selector keeps every run, a selector
    [key=value] keeps the runs whose label [key] has the value [value], and
    a selector without [=] keeps the runs that have the label at all. *)
Definition has_label (selector : string) (r : Run) : bool :=
  match split_selector selector with
  | Some (key, value) =>
      match assoc key (run_labels r) with
      | Some v => String.eqb value v
      | None => false
      end
  | None =>
      (String.length selector =? 0)%nat
      || match assoc selector (run_labels r) with
         | Some _ => true
         | None => false
         end
  end.

Definition filtering_run_db (runs : list Run) (name labels : string) : list Run :=
  filter (fun r => (String.eqb name "" || String.eqb name (run_name r))
                   && has_label labels r) runs.

(** The session whose outputs the notebook file stores: the descriptor
    shown by cell 6 and the run id in the run link of cell 12.  The last two
    cells were not run in that session; the run database here holds one run
    of that workflow and one of another. *)
Definition recorded_session : Platform :=
  mkPlatform
    (fun url => if String.eqb url "db://horovod-trainer"
                then Some trainer_fn_to_dict else None)
    "4fe69e52-d5b5-4aac-92e4-2da2971dd09e"
    (filtering_run_db
       [mkRun "download" [("workflow", "4fe69e52-d5b5-4aac-92e4-2da2971dd09e")];
        mkRun "train" [("workflow", "00000000-0000-0000-0000-000000000000")]]).

(** The state the notebook ends in, in the recorded session. *)
Definition recorded_notebook : Notebook :=
  Eval vm_compute in
    match run_notebook recorded_session with
    | inr nb => nb
    | inl _ => empty_notebook
    end.


(** ** Observations on a run *)

Definition trainer_url : string := "db://horovod-trainer".

(** A platform that differs from [P] only in that its function database
    answers every URL with [d]. *)
Definition holding (d : pyval) (P : Platform) : Platform :=
  mkPlatform (fun _ => Some d) (new_run_id P) (run_db P).

(** The calls made after the first call that satisfies [p]. *)
Fixpoint calls_after (p : Call -> bool) (l : list Call) : list Call :=
  match l with
  | [] => []
  | c :: rest => if p c then rest else calls_after p rest
  end.

(** The call made right after the first call that satisfies [p]. *)
Definition next_call (p : Call -> bool) (l : list Call) : option Call :=
  hd_error (calls_after p l).

(** The position of the first call that satisfies [p]. *)
Fixpoint position (p : Call -> bool) (l : list Call) : option nat :=
  match l with
  | [] => None
  | c :: rest =>
      if p c then Some 0
      else match position p rest with
           | Some n => Some (S n)
           | None => None
           end
  end.

(** Both kinds of call are made, and the first [p] comes before the first [q]. *)
Definition precedes (p q : Call -> bool) (l : list Call) : bool :=
  match position p l, position q l with
  | Some n, Some m => (n <? m)%nat
  | _, _ => false
  end.

Definition is_code_to_function (c : Call) : bool :=
  match c with CodeToFunction _ _ _ _ => true | _ => false end.

Definition is_new_model_server (c : Call) : bool :=
  match c with NewModelServer _ _ _ => true | _ => false end.

Definition is_import_function (c : Call) : bool :=
  match c with ImportFunction _ => true | _ => false end.

Definition is_dsl_pipeline (c : Call) : bool :=
  match c with DslPipeline _ _ => true | _ => false end.

Definition is_compile (c : Call) : bool :=
  match c with Compile _ _ => true | _ => false end.

Definition is_create_run (c : Call) : bool :=
  match c with CreateRun _ _ _ => true | _ => false end.

Definition is_connect (c : Call) : bool :=
  match c with Connect => true | _ => false end.

Definition is_list_runs (c : Call) : bool :=
  match c with ListRuns _ _ => true | _ => false end.

Definition is_apply (x : string) (m : Modifier) (c : Call) : bool :=
  match c with
  | Apply y m' => String.eqb x y && Modifier_eqb m m'
  | _ => false
  end.

(** The stages of the notebook, and the stage each call belongs to. *)
Inductive Phase : Type :=
| BuildDescriptor
| FetchFunction
| DeclarePipeline
| CompilePipeline
| SubmitPipeline
| QueryRunDb.

Definition Phase_eqb (a b : Phase) : bool :=
  match a, b with
  | BuildDescriptor, BuildDescriptor
  | FetchFunction, FetchFunction
  | DeclarePipeline, DeclarePipeline
  | CompilePipeline, CompilePipeline
  | SubmitPipeline, SubmitPipeline
  | QueryRunDb, QueryRunDb => true
  | _, _ => false
  end.

Definition phase_of (c : Call) : Phase :=
  match c with
  | CodeToFunction _ _ _ _ | NewModelServer _ _ _
  | Apply _ _ | Deploy _ | Export _ _ | WithHttp _ _ => BuildDescriptor
  | ImportFunction _ | ToDict _ => FetchFunction
  | DslPipeline _ _ => DeclarePipeline
  | Compile _ _ => CompilePipeline
  | KfpClient _ | CreateRun _ _ _ => SubmitPipeline
  | Connect | ListRuns _ _ | Show _ => QueryRunDb
  end.

(** A list of phases with runs of the same phase merged into one. *)
Fixpoint merge_runs (l : list Phase) : list Phase :=
  match l with
  | [] => []
  | a :: rest =>
      match rest with
      | b :: _ => if Phase_eqb a b then merge_runs rest else a :: merge_runs rest
      | [] => [a]
      end
  end.

(** The stages a call log goes through, in order. *)
Definition stages (l : list Call) : list Phase :=
  merge_runs (map phase_of l).

(** An operation has access to the data fabric when its function object
    carries the v3io mount or the operation itself carries the v3io
    credentials. *)
Definition has_modifier (m : Modifier) (l : list Modifier) : bool :=
  existsb (Modifier_eqb m) l.

Definition has_data_access (s : Step) : bool :=
  has_modifier mount_v3io (applied (step_function s))
  || has_modifier v3io_cred (step_applied s).

(** The run database filters by label: asked for a selector [key=value],
    with no [=] in [key], it returns only runs whose labels hold [value]
    under [key].  Nothing is asked of its answers to other selectors. *)
Definition selects_by_label (P : Platform) : Prop :=
  forall name key value r,
    split_selector (key ++ "=" ++ value) = Some (key, value) ->
    In r (run_db P name (key ++ "=" ++ value)) ->
    In (key, value) (run_labels r).

(** ** Data flow between the operations *)

(** The outputs of other operations that a list of arguments refers to. *)
Fixpoint references (args : list (string * Arg)) : list (nat * string) :=
  match args with
  | [] => []
  | (_, Output op key) :: rest => (op, key) :: references rest
  | _ :: rest => references rest
  end.

Definition step_references (s : Step) : list (nat * string) :=
  (references (params s) ++ references (inputs s) ++ references (models s))%list.

(** The operations an operation waits for: the ones named by [.after()] and
    the ones whose outputs it takes. *)
Definition dependencies (s : Step) : list nat :=
  (after_ops s ++ map fst (step_references s))%list.

(** What is left of an operation when the values its arguments take from
    the parameters are forgotten: its kind, name, function object, handler
    and project, the names of its params and inputs, its outputs, the
    outputs of other operations it refers to (in params, inputs and models),
    the operations it waits for, and its modifiers. *)
Definition skeleton (s : Step)
    : OpKind * option string * Function * option string * option string
      * list string * list string * list string
      * list (nat * string) * list (nat * string) * list (nat * string)
      * list nat * list nat * list Modifier :=
  (op_kind s, step_name s, step_function s, handler s, project s,
   map fst (params s), map fst (inputs s), outputs s,
   references (params s), references (inputs s), references (models s),
   after_ops s, dependencies s, step_applied s).

(** * Properties *)

(** ** Running the notebook *)

(** The only cell that can fail is the one that fetches the training
    function: the notebook runs to its end exactly when the function
    database holds a descriptor under the URL. *)
Lemma run_notebook_fetch (P : Platform) :
  run_notebook P =
    match function_db P trainer_url with
    | Some d => run_notebook (holding d P)
    | None => inl (FunctionNotFound trainer_url)
    end.
Proof.
  unfold run_notebook, notebook, cell_6, import_function, trainer_url.
  cbn.
  destruct (function_db P "db://horovod-trainer") as [d|]; reflexivity.
Qed.

Lemma run_notebook_fetched (P : Platform) (nb : Notebook) :
  run_notebook P = inr nb ->
  exists d, function_db P trainer_url = Some d /\
            run_notebook (holding d P) = inr nb.
Proof.
  intros Hrun. rewrite run_notebook_fetch in Hrun.
  destruct (function_db P trainer_url) as [d|]; [| discriminate].
  exists d. split; [reflexivity | exact Hrun].
Qed.

Lemma run_notebook_defined (P : Platform) (d : pyval) :
  function_db P trainer_url = Some d ->
  exists nb, run_notebook P = inr nb.
Proof.
  intros Hd. rewrite run_notebook_fetch, Hd.
  eexists. vm_compute. reflexivity.
Qed.

(** With nothing stored under the URL, the run stops at cell 6. *)
Example run_notebook_empty_db :
  run_notebook (mkPlatform (fun _ => None) "run-1" (fun _ _ => []))
    = inl (FunctionNotFound "db://horovod-trainer").
Proof. reflexivity. Qed.

(** Replaces a run hypothesis by the state it determines, with the fetched
    descriptor [d] left symbolic. *)
Ltac ran Hrun d Hd :=
  apply run_notebook_fetched in Hrun;
  destruct Hrun as (d & Hd & Hrun);
  vm_compute in Hrun;
  injection Hrun as Hrun;
  subst.

(** ** The function objects at the end of the run *)

Section Functions.
Variables (P : Platform) (nb : Notebook).
Hypothesis Hrun : run_notebook P = inr nb.

Lemma utilsfn_final :
  global_function "utilsfn" nb =
    Some (mkFunction
            (FromCode "file_utils" "../src/utils.py" "mlrun/mlrun:latest" "job")
            [mount_v3io] None true).
Proof. generalize Hrun; intros H. ran H d Hd. reflexivity. Qed.

Lemma inference_function_final :
  global_function "inference_function" nb =
    Some (mkFunction
            (ModelServer "tf-images-server" "./nuclio-serving-tf-images.ipynb"
               "TFModel")
            [mount_v3io] (Some 2%Z) false).
Proof. generalize Hrun; intros H. ran H d Hd. reflexivity. Qed.

Lemma trainer_fn_final :
  exists d,
    function_db P trainer_url = Some d /\
    global_function "trainer_fn" nb =
      Some (mkFunction (FromDb trainer_url d) [] None false).
Proof.
  generalize Hrun; intros H. ran H d Hd.
  exists d. split; [exact Hd | reflexivity].
Qed.
End Functions.

(** ** The pipeline function *)

Lemma global_function_assoc (x : string) (nb : Notebook) (f : Function) :
  global_function x nb = Some f -> assoc x (globals nb) = Some (VFn f).
Proof.
  unfold global_function, global.
  destruct (assoc x (globals nb)) as [[]|]; congruence.
Qed.

(** Invoked before the function objects are bound, the pipeline function
    raises. *)
Example pipeline_ops_unbound (a : PipelineArgs) :
  pipeline_ops [] a = inl (NameError "utilsfn").
Proof. reflexivity. Qed.

(** An output can be referred to only when the operation declares it. *)
Lemma output_declared (ops : list Step) (op : nat) (s : Step) (key : string) :
  nth_error ops op = Some s ->
  runStateT (output op key) ops =
    if existsb (String.eqb key) (outputs s) then inr (Output op key, ops)
    else inl (KeyError key).
Proof.
  intros Hs. unfold output. cbn. rewrite Hs.
  destruct (existsb (String.eqb key) (outputs s)); reflexivity.
Qed.

(** A new operation is added at the end, and it is referred to by the
    position it gets. *)
Lemma add_op_position (ops : list Step) (s : Step) :
  runStateT (add_op s) ops = inr (length ops, (ops ++ [s])%list) /\
  nth_error (ops ++ [s]) (length ops) = Some s.
Proof.
  split; [reflexivity |].
  rewrite nth_error_app2, Nat.sub_diag; [reflexivity | apply le_n].
Qed.

Section Pipeline.
Variables (g : list (string * Value)) (a : PipelineArgs).
Variables (u t i : Function) (m : Modifier).
Hypothesis Hu : assoc "utilsfn" g = Some (VFn u).
Hypothesis Ht : assoc "trainer_fn" g = Some (VFn t).
Hypothesis Hm : assoc "v3io_cred" g = Some (VModifier m).
Hypothesis Hi : assoc "inference_function" g = Some (VFn i).

(** Whenever the three function objects and the modifier are bound,
    invoking the pipeline function declares these four operations and
    raises nothing. *)
Lemma pipeline_ops_bound :
  pipeline_ops g a =
    inr [mkStep RunOp (Some "download") u (Some "open_archive")
           (Some (images_path a)) None
           [("target_dir", Str (images_path a))]
           [("archive_url", Str (image_archive a))]
           ["content"] [] [] [];
         mkStep RunOp (Some "label") u (Some "categories_map_builder")
           (Some (images_path a)) None
           [("source_dir", Str (source_dir a))]
           []
           ["categories_map"; "file_categories"] [] [0] [];
         mkStep RunOp (Some "train") t None None None
           [("epochs", Int 1);
            ("checkpoints_dir", Str (checkpoints_dir a));
            ("model_path", Str (model_path a));
            ("data_path", Str (source_dir a))]
           [("categories_map", Output 1 "categories_map");
            ("file_categories", Output 1 "file_categories")]
           ["model"] [] [] [m];
         mkStep DeployOp None i None None (Some "nuclio-serving") [] [] []
           [(model_name a, Output 2 "model")] [] []].
Proof.
  unfold pipeline_ops, hvd_pipeline, global_fn, global_modifier.
  rewrite Hu, Ht, Hm, Hi. reflexivity.
Qed.
End Pipeline.

(** The notebook ends with the three function objects bound, so the
    pipeline function can be invoked. *)
Lemma notebook_binds (P : Platform) (nb : Notebook) :
  run_notebook P = inr nb ->
  exists u t i,
    global_function "utilsfn" nb = Some u /\
    global_function "trainer_fn" nb = Some t /\
    global_function "inference_function" nb = Some i /\
    assoc "utilsfn" (globals nb) = Some (VFn u) /\
    assoc "trainer_fn" (globals nb) = Some (VFn t) /\
    assoc "inference_function" (globals nb) = Some (VFn i) /\
    assoc "v3io_cred" (globals nb) = Some (VModifier v3io_cred).
Proof.
  intros Hrun.
  pose proof (utilsfn_final P nb Hrun) as Hu.
  pose proof (inference_function_final P nb Hrun) as Hi.
  destruct (trainer_fn_final P nb Hrun) as (d & _ & Ht).
  eexists _, _, _.
  split; [exact Hu |]. split; [exact Ht |]. split; [exact Hi |].
  split; [| split; [| split]];
    try (apply global_function_assoc; assumption).
  generalize Hrun; intros H. ran H d' Hd'. reflexivity.
Qed.

(** ** The call log *)

(** The calls of a run that reaches the end, in the order they are made.
    The operations handed to the compiler and to the pipelines client are
    the ones the pipeline function declares with its default parameters. *)
Lemma notebook_calls (P : Platform) (nb : Notebook) :
  run_notebook P = inr nb ->
  exists ops,
    pipeline_ops (globals nb) defaults = inr ops /\
    calls nb =
      [CodeToFunction "file_utils" "../src/utils.py" "mlrun/mlrun:latest" "job";
       Apply "utilsfn" mount_v3io;
       Deploy "utilsfn";
       Export "utilsfn" "../yaml/utils.yaml";
       ImportFunction "db://horovod-trainer";
       ToDict "trainer_fn";
       NewModelServer "tf-images-server" "./nuclio-serving-tf-images.ipynb"
         "TFModel";
       WithHttp "inference_function" 2;
       Apply "inference_function" mount_v3io;
       DslPipeline "Image classification training pipeline"
         "Shows how to use mlrun with horovod.";
       Compile ops "hvd_pipeline.yaml";
       KfpClient "default-tenant";
       CreateRun ops [] "horovod1";
       Connect;
       ListRuns "" ("workflow=" ++ new_run_id P);
       Show (run_db P "" ("workflow=" ++ new_run_id P))].
Proof.
  intros Hrun. ran Hrun d Hd.
  eexists. split; vm_compute; reflexivity.
Qed.

Lemma recorded_run : run_notebook recorded_session = inr recorded_notebook.
Proof. vm_compute. reflexivity. Qed.

(** ** The pipeline *)

(** C1. The pipeline function [hvd_pipeline], declared under the name
    'Image classification training pipeline', declares exactly four
    operations, in this order: 'download' (handler [open_archive]), 'label'
    (handler [categories_map_builder]), 'train' (the function fetched from
    the database) and a deploy operation.  'label' is declared to run after
    'download' (operation 0), 'train' takes the outputs 'categories_map' and
    'file_categories' of 'label' (operation 1) as inputs, and the deploy
    operation takes the output 'model' of 'train' (operation 2). *)
Theorem c1_four_steps (P : Platform) (nb : Notebook) (a : PipelineArgs) :
  run_notebook P = inr nb ->
  In (DslPipeline "Image classification training pipeline"
        "Shows how to use mlrun with horovod.") (calls nb) /\
  exists download label train deploy,
    pipeline_ops (globals nb) a = inr [download; label; train; deploy] /\
    (op_kind download = RunOp /\ step_name download = Some "download" /\
     handler download = Some "open_archive" /\ after_ops download = []) /\
    (op_kind label = RunOp /\ step_name label = Some "label" /\
     handler label = Some "categories_map_builder" /\
     after_ops label = [0] /\
     outputs label = ["categories_map"; "file_categories"]) /\
    (op_kind train = RunOp /\ step_name train = Some "train" /\
     global_function "trainer_fn" nb = Some (step_function train) /\
     inputs train = [("categories_map", Output 1 "categories_map");
                     ("file_categories", Output 1 "file_categories")] /\
     outputs train = ["model"]) /\
    (op_kind deploy = DeployOp /\
     models deploy = [(model_name a, Output 2 "model")]).
Proof.
  intros Hrun. split.
  - destruct (notebook_calls P nb Hrun) as (ops & _ & ->).
    cbn. tauto.
  - destruct (notebook_binds P nb Hrun)
      as (u & t & i & _ & Ht & _ & Hu' & Ht' & Hi' & Hm').
    rewrite (pipeline_ops_bound _ a u t i v3io_cred Hu' Ht' Hm' Hi').
    do 4 eexists. split; [reflexivity |].
    cbn. rewrite Ht. repeat split.
Qed.

Lemma c1_four_steps_witness :
  run_notebook recorded_session = inr recorded_notebook /\
  exists download label train deploy,
    pipeline_ops (globals recorded_notebook) defaults
      = inr [download; label; train; deploy] /\
    step_name label = Some "label" /\ after_ops label = [0].
Proof.
  split; [exact recorded_run |].
  destruct (c1_four_steps recorded_session recorded_notebook defaults recorded_run)
    as (_ & download & label & train & deploy & Hops & _ & Hl & _).
  exists download, label, train, deploy.
  split; [exact Hops |]. tauto.
Defined.

(** ** The function objects *)

(** C2. The training function is not built by the notebook: [trainer_fn]
    is the function object [import_function] returns for the key
    'db://horovod-trainer', it carries the descriptor the function database
    holds under that key, and the notebook applies nothing to it.  In a
    session whose database holds the descriptor stored in the notebook's
    output, that descriptor is a record of kind 'mpijob' named
    'horovod-trainer' with the image 'mlrun/mpijob:latest', the path of the
    Horovod training script as command, 4 replicas, and one volume, 'v3io',
    mounted at '/User'. *)
Theorem c2_trainer_from_db (P : Platform) (nb : Notebook) :
  run_notebook P = inr nb ->
  function_db P "db://horovod-trainer" = Some trainer_fn_to_dict ->
  In (ImportFunction "db://horovod-trainer") (calls nb) /\
  exists f,
    global_function "trainer_fn" nb = Some f /\
    origin f = FromDb "db://horovod-trainer" trainer_fn_to_dict /\
    applied f = [] /\
    item "kind" trainer_fn_to_dict = Some (PStr "mpijob") /\
    function_name f = Some "horovod-trainer" /\
    image_of f = Some "mlrun/mpijob:latest" /\
    item_path ["spec"; "command"] trainer_fn_to_dict
      = Some (PStr "/User/demo-image-classification/src/horovod-training.py") /\
    item_path ["spec"; "replicas"] trainer_fn_to_dict = Some (PInt 4) /\
    item_path ["spec"; "volume_mounts"] trainer_fn_to_dict
      = Some (PList [PDict [("mountPath", PStr "/User"); ("name", PStr "v3io")]]) /\
    exists volume,
      item_path ["spec"; "volumes"] trainer_fn_to_dict = Some (PList [volume]) /\
      item "name" volume = Some (PStr "v3io") /\
      item_path ["flexVolume"; "driver"] volume = Some (PStr "v3io/fuse").
Proof.
  intros Hrun Hdb. split.
  - destruct (notebook_calls P nb Hrun) as (ops & _ & ->).
    cbn. tauto.
  - destruct (trainer_fn_final P nb Hrun) as (d & Hd & Hf).
    unfold trainer_url in Hd. rewrite Hdb in Hd.
    injection Hd as <-.
    eexists. split; [exact Hf |].
    repeat split.
    eexists. repeat split.
Qed.

Lemma c2_trainer_from_db_witness :
  run_notebook recorded_session = inr recorded_notebook /\
  function_db recorded_session "db://horovod-trainer" = Some trainer_fn_to_dict /\
  exists f,
    global_function "trainer_fn" recorded_notebook = Some f /\
    image_of f = Some "mlrun/mpijob:latest".
Proof.
  split; [exact recorded_run |].
  split; [reflexivity |].
  destruct (c2_trainer_from_db recorded_session recorded_notebook
              recorded_run eq_refl)
    as (_ & f & Hf & _ & _ & _ & _ & Himage & _).
  exists f. split; [exact Hf | exact Himage].
Defined.

(** C3. The deploy operation deploys the function object
    [inference_function]: the model server 'tf-images-server' of class
    'TFModel', configured by [with_http] with 2 workers.  Its [models]
    mapping has one entry, which binds the model name to the output 'model'
    of operation 2; operation 2 is the 'train' operation, and 'model' is an
    output it declares. *)
Theorem c3_deploy_serves_trained_model
    (P : Platform) (nb : Notebook) (a : PipelineArgs) :
  run_notebook P = inr nb ->
  In (WithHttp "inference_function" 2) (calls nb) /\
  exists ops train deploy,
    pipeline_ops (globals nb) a = inr ops /\
    nth_error ops 2 = Some train /\
    nth_error ops 3 = Some deploy /\
    length ops = 4 /\
    op_kind deploy = DeployOp /\
    global_function "inference_function" nb = Some (step_function deploy) /\
    origin (step_function deploy)
      = ModelServer "tf-images-server" "./nuclio-serving-tf-images.ipynb" "TFModel" /\
    http_workers (step_function deploy) = Some 2%Z /\
    models deploy = [(model_name a, Output 2 "model")] /\
    step_name train = Some "train" /\
    In "model" (outputs train).
Proof.
  intros Hrun. split.
  - destruct (notebook_calls P nb Hrun) as (ops & _ & ->).
    cbn. tauto.
  - destruct (notebook_binds P nb Hrun)
      as (u & t & i & _ & _ & Hi & Hu' & Ht' & Hi' & Hm').
    rewrite (pipeline_ops_bound _ a u t i v3io_cred Hu' Ht' Hm' Hi').
    pose proof (inference_function_final P nb Hrun) as Hfinal.
    rewrite Hfinal in Hi. injection Hi as <-.
    do 3 eexists. split; [reflexivity |].
    cbn. rewrite Hfinal. repeat split. left. reflexivity.
Qed.

Lemma c3_deploy_serves_trained_model_witness :
  run_notebook recorded_session = inr recorded_notebook /\
  exists ops deploy,
    pipeline_ops (globals recorded_notebook) defaults = inr ops /\
    nth_error ops 3 = Some deploy /\
    models deploy = [("cat_vs_dog_v1", Output 2 "model")].
Proof.
  split; [exact recorded_run |].
  destruct (c3_deploy_serves_trained_model recorded_session recorded_notebook
              defaults recorded_run)
    as (_ & ops & train & deploy & Hops & _ & Hd & _ & _ & _ & _ & _ & Hm & _).
  exists ops, deploy.
  split; [exact Hops |]. split; [exact Hd | exact Hm].
Defined.

(** C6. Two function objects are built from source files.  [utilsfn] is
    built by [code_to_function] with the name 'file_utils' from the file
    '../src/utils.py', with the image 'mlrun/mlrun:latest' and the kind
    'job', and [deploy()] is called on it, which builds its container image.
    [inference_function] is built by [new_model_server] with the name
    'tf-images-server' from the file './nuclio-serving-tf-images.ipynb',
    with the model class 'TFModel'. *)
Theorem c6_descriptors_from_source (P : Platform) (nb : Notebook) :
  run_notebook P = inr nb ->
  (exists utilsfn,
     global_function "utilsfn" nb = Some utilsfn /\
     origin utilsfn
       = FromCode "file_utils" "../src/utils.py" "mlrun/mlrun:latest" "job" /\
     source_file utilsfn = Some "../src/utils.py" /\
     image_of utilsfn = Some "mlrun/mlrun:latest" /\
     image_built utilsfn = true) /\
  (exists inference_function,
     global_function "inference_function" nb = Some inference_function /\
     origin inference_function
       = ModelServer "tf-images-server" "./nuclio-serving-tf-images.ipynb"
           "TFModel" /\
     source_file inference_function = Some "./nuclio-serving-tf-images.ipynb") /\
  In (CodeToFunction "file_utils" "../src/utils.py" "mlrun/mlrun:latest" "job")
     (calls nb) /\
  In (NewModelServer "tf-images-server" "./nuclio-serving-tf-images.ipynb"
        "TFModel") (calls nb) /\
  precedes is_code_to_function
    (fun c => match c with Deploy "utilsfn" => true | _ => false end)
    (calls nb) = true.
Proof.
  intros Hrun.
  split; [| split].
  - eexists. split; [apply (utilsfn_final P nb Hrun) |]. repeat split.
  - eexists. split; [apply (inference_function_final P nb Hrun) |]. repeat split.
  - destruct (notebook_calls P nb Hrun) as (ops & _ & ->).
    cbn. tauto.
Qed.

Lemma c6_descriptors_from_source_witness :
  run_notebook recorded_session = inr recorded_notebook /\
  In (CodeToFunction "file_utils" "../src/utils.py" "mlrun/mlrun:latest" "job")
     (calls recorded_notebook).
Proof.
  split; [exact recorded_run |].
  exact (proj1 (proj2 (proj2
           (c6_descriptors_from_source recorded_session recorded_notebook
              recorded_run)))).
Defined.

(** C9. The notebook submits the pipeline with no arguments, so the run is
    declared with the default parameters.  With them, the 'download'
    operation takes the archive
    'http://iguazio-sample-data.s3.amazonaws.com/catsndogs.zip' as input and
    '/User/mlrun/examples/images' as target directory; the 'train' operation
    has the parameters epochs = 1, checkpoints_dir =
    '/User/mlrun/examples/checkpoints' and model_path =
    '/User/mlrun/examples/models/cats_n_dogs.h5'; and the model is deployed
    under the name 'cat_vs_dog_v1'.  Whatever the parameters, the output
    path of both 'download' and 'label' is the [images_path] parameter. *)
Theorem c9_default_arguments (P : Platform) (nb : Notebook) :
  run_notebook P = inr nb ->
  (exists download label train deploy,
     In (CreateRun [download; label; train; deploy] [] "horovod1") (calls nb) /\
     pipeline_ops (globals nb) defaults = inr [download; label; train; deploy] /\
     step_name download = Some "download" /\
     inputs download
       = [("archive_url",
           Str "http://iguazio-sample-data.s3.amazonaws.com/catsndogs.zip")] /\
     params download = [("target_dir", Str "/User/mlrun/examples/images")] /\
     out_path download = Some "/User/mlrun/examples/images" /\
     step_name train = Some "train" /\
     assoc "epochs" (params train) = Some (Int 1) /\
     assoc "checkpoints_dir" (params train)
       = Some (Str "/User/mlrun/examples/checkpoints") /\
     assoc "model_path" (params train)
       = Some (Str "/User/mlrun/examples/models/cats_n_dogs.h5") /\
     op_kind deploy = DeployOp /\
     models deploy = [("cat_vs_dog_v1", Output 2 "model")]) /\
  (forall a, exists download label train deploy,
     pipeline_ops (globals nb) a = inr [download; label; train; deploy] /\
     step_name download = Some "download" /\
     out_path download = Some (images_path a) /\
     step_name label = Some "label" /\
     out_path label = Some (images_path a)).
Proof.
  intros Hrun.
  destruct (notebook_binds P nb Hrun)
    as (u & t & i & _ & _ & _ & Hu' & Ht' & Hi' & Hm').
  split.
  - destruct (notebook_calls P nb Hrun) as (ops & Hops & ->).
    rewrite (pipeline_ops_bound _ defaults u t i v3io_cred Hu' Ht' Hm' Hi') in Hops |- *.
    injection Hops as <-.
    do 4 eexists. split; [| split; [reflexivity |]].
    + cbn. do 12 right. left. reflexivity.
    + cbn. repeat split.
  - intros a.
    rewrite (pipeline_ops_bound _ a u t i v3io_cred Hu' Ht' Hm' Hi').
    do 4 eexists. split; [reflexivity |]. cbn. repeat split.
Qed.

Lemma c9_default_arguments_witness :
  run_notebook recorded_session = inr recorded_notebook /\
  exists download label train deploy,
    pipeline_ops (globals recorded_notebook) defaults
      = inr [download; label; train; deploy] /\
    out_path download = Some "/User/mlrun/examples/images" /\
    assoc "epochs" (params train) = Some (Int 1) /\
    models deploy = [("cat_vs_dog_v1", Output 2 "model")].
Proof.
  split; [exact recorded_run |].
  destruct (c9_default_arguments recorded_session recorded_notebook recorded_run)
    as ((download & label & train & deploy & _ & Hops & _ & _ & _ & Hout & _
         & Hepochs & _ & _ & _ & Hmodels) & _).
  exists download, label, train, deploy.
  split; [exact Hops |]. split; [exact Hout |].
  split; [exact Hepochs | exact Hmodels].
Defined.

(** C10 as stated fails: with the default parameters in the recorded
    session, the 'download' and 'label' operations also differ in the
    operations they are declared to run after (and in their names), which
    are not among handler, params, inputs and outputs. *)
Lemma c10_counterexample :
  run_notebook recorded_session = inr recorded_notebook /\
  exists download label train deploy,
    pipeline_ops (globals recorded_notebook) defaults
      = inr [download; label; train; deploy] /\
    step_name download = Some "download" /\
    step_name label = Some "label" /\
    after_ops download = [] /\
    after_ops label = [0] /\
    after_ops download <> after_ops label /\
    step_name download <> step_name label.
Proof.
  split; [exact recorded_run |].
  do 4 eexists. split; [vm_compute; reflexivity |].
  cbn. repeat split; discriminate.
Qed.

(** C10, amended.  One function object, [utilsfn], built by the only call
    of [code_to_function] from '../src/utils.py', backs two operations:
    'download' with the handler 'open_archive' and 'label' with the handler
    'categories_map_builder'.  The two operations have the same function
    object (so the same image and the same applied mounts), the same kind,
    output path, project, models and applied modifiers; they differ in name,
    handler, params, inputs, outputs and in the operations they run after
    ('label' runs after 'download'). *)
Theorem c10_one_function_two_steps
    (P : Platform) (nb : Notebook) (a : PipelineArgs) :
  run_notebook P = inr nb ->
  length (filter is_code_to_function (calls nb)) = 1 /\
  exists utilsfn download label train deploy,
    global_function "utilsfn" nb = Some utilsfn /\
    source_file utilsfn = Some "../src/utils.py" /\
    pipeline_ops (globals nb) a = inr [download; label; train; deploy] /\
    (step_name download = Some "download" /\
     handler download = Some "open_archive" /\
     step_name label = Some "label" /\
     handler label = Some "categories_map_builder") /\
    (step_function download = utilsfn /\ step_function label = utilsfn /\
     image_of (step_function download) = image_of (step_function label) /\
     applied (step_function download) = [mount_v3io] /\
     applied (step_function label) = [mount_v3io]) /\
    (op_kind download = op_kind label /\
     out_path download = out_path label /\
     project download = project label /\
     models download = models label /\
     step_applied download = step_applied label) /\
    (step_name download <> step_name label /\
     handler download <> handler label /\
     params download <> params label /\
     inputs download <> inputs label /\
     outputs download <> outputs label /\
     after_ops download <> after_ops label).
Proof.
  intros Hrun. split.
  - destruct (notebook_calls P nb Hrun) as (ops & _ & ->). reflexivity.
  - destruct (notebook_binds P nb Hrun)
      as (u & t & i & Hu & _ & _ & Hu' & Ht' & Hi' & Hm').
    rewrite (pipeline_ops_bound _ a u t i v3io_cred Hu' Ht' Hm' Hi').
    pose proof (utilsfn_final P nb Hrun) as Hfinal.
    rewrite Hfinal in Hu. injection Hu as <-.
    do 5 eexists. split; [exact Hfinal |].
    split; [reflexivity |]. split; [reflexivity |].
    cbn. repeat split; discriminate.
Qed.

Lemma c10_one_function_two_steps_witness :
  run_notebook recorded_session = inr recorded_notebook /\
  length (filter is_code_to_function (calls recorded_notebook)) = 1.
Proof.
  split; [exact recorded_run |].
  exact (proj1 (c10_one_function_two_steps recorded_session recorded_notebook
                  defaults recorded_run)).
Defined.

(** ** The order of the calls *)

(** C4 as stated fails: in the recorded session the stages are not build,
    fetch, declare, compile, submit, query.  The model-server descriptor is
    built from its source file after the training function is fetched. *)
Lemma c4_counterexample :
  run_notebook recorded_session = inr recorded_notebook /\
  stages (calls recorded_notebook)
    <> [BuildDescriptor; FetchFunction; DeclarePipeline; CompilePipeline;
        SubmitPipeline; QueryRunDb] /\
  position is_import_function (calls recorded_notebook) = Some 4 /\
  nth_error (calls recorded_notebook) 6
    = Some (NewModelServer "tf-images-server"
              "./nuclio-serving-tf-images.ipynb" "TFModel").
Proof.
  split; [exact recorded_run |].
  split; [vm_compute; discriminate |].
  split; reflexivity.
Qed.

(** C4, amended.  The notebook goes through its stages in this fixed
    order: it builds the utility function descriptor from its source file,
    then fetches the registered training function from the database, then
    builds the model-server descriptor from its source file, then declares
    the pipeline, then compiles it, then submits it for execution, and
    finally queries the run database.  In particular the pipeline is
    compiled before it is submitted, and the run database is connected to
    and queried after the submission. *)
Theorem c4_order_of_operations (P : Platform) (nb : Notebook) :
  run_notebook P = inr nb ->
  stages (calls nb)
    = [BuildDescriptor; FetchFunction; BuildDescriptor; DeclarePipeline;
       CompilePipeline; SubmitPipeline; QueryRunDb] /\
  precedes is_code_to_function is_import_function (calls nb) = true /\
  precedes is_import_function is_new_model_server (calls nb) = true /\
  precedes is_new_model_server is_dsl_pipeline (calls nb) = true /\
  precedes is_dsl_pipeline is_compile (calls nb) = true /\
  precedes is_compile is_create_run (calls nb) = true /\
  precedes is_create_run is_connect (calls nb) = true /\
  precedes is_connect is_list_runs (calls nb) = true /\
  length (filter is_compile (calls nb)) = 1 /\
  length (filter is_create_run (calls nb)) = 1 /\
  length (filter is_list_runs (calls nb)) = 1.
Proof.
  intros Hrun.
  destruct (notebook_calls P nb Hrun) as (ops & _ & ->).
  cbn. repeat split.
Qed.

Lemma c4_order_of_operations_witness :
  run_notebook recorded_session = inr recorded_notebook /\
  precedes is_compile is_create_run (calls recorded_notebook) = true /\
  precedes is_create_run is_list_runs (calls recorded_notebook) = true.
Proof.
  split; [exact recorded_run |].
  destruct (c4_order_of_operations recorded_session recorded_notebook recorded_run)
    as (_ & _ & _ & _ & _ & Hcs & _).
  split; [exact Hcs | reflexivity].
Defined.

(** ** The query of the run database *)

Lemma assoc_In {A : Type} (k : string) (d : list (string * A)) (v : A) :
  assoc k d = Some v -> In (k, v) d.
Proof.
  induction d as [|[k' v'] rest IH]; cbn; [discriminate |].
  destruct (String.eqb_spec k k') as [<- | Hne].
  - intros [= <-]. left. reflexivity.
  - intros H. right. exact (IH H).
Qed.

(** The run database of the recorded session filters by label. *)
Lemma filtering_run_db_selects (runs : list Run) (name key value : string)
    (r : Run) :
  split_selector (key ++ "=" ++ value) = Some (key, value) ->
  In r (filtering_run_db runs name (key ++ "=" ++ value)) ->
  In (key, value) (run_labels r).
Proof.
  unfold filtering_run_db. intros Hsplit H.
  apply filter_In in H. destruct H as (_ & H).
  apply andb_true_iff in H. destruct H as (_ & H).
  unfold has_label in H. rewrite Hsplit in H.
  destruct (assoc key (run_labels r)) as [v|] eqn:Hv; [| discriminate].
  apply String.eqb_eq in H. subst v.
  apply assoc_In. exact Hv.
Qed.

(** It does not answer every selector with nothing: the empty selector
    and the empty name keep every run. *)
Lemma filtering_run_db_all (runs : list Run) :
  filtering_run_db runs "" "" = runs.
Proof.
  unfold filtering_run_db.
  induction runs as [|r rest IH]; cbn; [reflexivity |].
  f_equal. exact IH.
Qed.

Lemma recorded_session_selects_by_label : selects_by_label recorded_session.
Proof.
  intros name key value r. apply filtering_run_db_selects.
Qed.

(** The selector the notebook builds splits into the key 'workflow' and
    the run id, whatever the run id is. *)
Lemma workflow_selector (run_id : string) :
  split_selector ("workflow" ++ "=" ++ run_id) = Some ("workflow", run_id).
Proof. reflexivity. Qed.

(** C5. The last calls of the notebook are, in this order: the submission
    of the pipeline, the connection to the run database, and [list_runs]
    with an empty name and the label selector 'workflow=<run id>', whose
    result is shown.  The run id is the [run_id] of [run_result], the result
    of the submission.  That much the notebook does on any platform.  When
    the run database filters by label, every run the notebook shows has the
    label 'workflow' with that run id as its value. *)
Theorem c5_query_by_workflow (P : Platform) (nb : Notebook) :
  run_notebook P = inr nb ->
  global "run_result" nb = Some (VRunResult (new_run_id P)) /\
  (exists earlier ops,
     calls nb =
       (earlier ++
        [CreateRun ops [] "horovod1";
         Connect;
         ListRuns "" ("workflow=" ++ new_run_id P);
         Show (run_db P "" ("workflow=" ++ new_run_id P))])%list) /\
  (selects_by_label P ->
   forall runs r,
     In (Show runs) (calls nb) ->
     In r runs ->
     In ("workflow", new_run_id P) (run_labels r)).
Proof.
  intros Hrun.
  split; [| split].
  - generalize Hrun; intros H. ran H d Hd. reflexivity.
  - destruct (notebook_calls P nb Hrun) as (ops & _ & ->).
    eexists (_ :: _ :: _ :: _ :: _ :: _ :: _ :: _ :: _ :: _ :: _ :: [_]), ops.
    reflexivity.
  - intros Hdb runs r Hshow Hr.
    destruct (notebook_calls P nb Hrun) as (ops & _ & Hcalls).
    rewrite Hcalls in Hshow. cbn in Hshow.
    repeat (destruct Hshow as [Hshow | Hshow]; [try discriminate |]);
      [| contradiction].
    injection Hshow as <-.
    apply (Hdb "" "workflow" (new_run_id P) r (workflow_selector _)).
    exact Hr.
Qed.

Lemma c5_query_by_workflow_witness :
  run_notebook recorded_session = inr recorded_notebook /\
  selects_by_label recorded_session /\
  global "run_result" recorded_notebook
    = Some (VRunResult "4fe69e52-d5b5-4aac-92e4-2da2971dd09e") /\
  In (Show [mkRun "download"
              [("workflow", "4fe69e52-d5b5-4aac-92e4-2da2971dd09e")]])
     (calls recorded_notebook) /\
  forall runs r,
    In (Show runs) (calls recorded_notebook) ->
    In r runs ->
    In ("workflow", "4fe69e52-d5b5-4aac-92e4-2da2971dd09e") (run_labels r).
Proof.
  pose proof (c5_query_by_workflow recorded_session recorded_notebook
                recorded_run) as (Hresult & _ & Hshown).
  split; [exact recorded_run |].
  split; [exact recorded_session_selects_by_label |].
  split; [exact Hresult |].
  split.
  - vm_compute. do 15 right. left. reflexivity.
  - exact (Hshown recorded_session_selects_by_label).
Defined.

(** ** Access to the data fabric *)

(** C8 as stated fails: in the recorded session the call made right after
    the model server is constructed is [with_http], not
    [apply(mount_v3io())]. *)
Lemma c8_counterexample :
  run_notebook recorded_session = inr recorded_notebook /\
  next_call is_new_model_server (calls recorded_notebook)
    = Some (WithHttp "inference_function" 2) /\
  next_call is_new_model_server (calls recorded_notebook)
    <> Some (Apply "inference_function" mount_v3io).
Proof.
  split; [exact recorded_run |].
  split; [reflexivity | vm_compute; discriminate].
Qed.

(** C8, amended.  Every function object the pipeline uses has access to
    the data fabric before it is used.  [mount_v3io()] is applied to the
    utility function right after its construction, and to the model-server
    function after its construction and its [with_http] call; both are
    applied before the pipeline is declared.  The 'train' operation has
    [v3io_cred()] applied when it is declared.  Every operation of the
    pipeline carries the v3io mount (on its function object) or the v3io
    credentials. *)
Theorem c8_data_fabric_access (P : Platform) (nb : Notebook) (a : PipelineArgs) :
  run_notebook P = inr nb ->
  next_call is_code_to_function (calls nb) = Some (Apply "utilsfn" mount_v3io) /\
  firstn 2 (calls_after is_new_model_server (calls nb))
    = [WithHttp "inference_function" 2; Apply "inference_function" mount_v3io] /\
  precedes (is_apply "utilsfn" mount_v3io) is_dsl_pipeline (calls nb) = true /\
  precedes (is_apply "inference_function" mount_v3io) is_dsl_pipeline (calls nb)
    = true /\
  exists download label train deploy,
    pipeline_ops (globals nb) a = inr [download; label; train; deploy] /\
    has_modifier mount_v3io (applied (step_function download)) = true /\
    has_modifier mount_v3io (applied (step_function label)) = true /\
    (step_name train = Some "train" /\ step_applied train = [v3io_cred]) /\
    has_modifier mount_v3io (applied (step_function deploy)) = true /\
    forallb has_data_access [download; label; train; deploy] = true.
Proof.
  intros Hrun.
  assert (Hcalls := notebook_calls P nb Hrun).
  destruct Hcalls as (ops & _ & Hcalls).
  rewrite Hcalls.
  do 4 (split; [reflexivity |]).
  destruct (notebook_binds P nb Hrun)
    as (u & t & i & Hu & _ & Hi & Hu' & Ht' & Hi' & Hm').
  rewrite (pipeline_ops_bound _ a u t i v3io_cred Hu' Ht' Hm' Hi').
  rewrite (utilsfn_final P nb Hrun) in Hu. injection Hu as <-.
  rewrite (inference_function_final P nb Hrun) in Hi. injection Hi as <-.
  do 4 eexists. split; [reflexivity |].
  cbn. repeat split.
  unfold has_data_access. cbn.
  rewrite orb_true_r. reflexivity.
Qed.

Lemma c8_data_fabric_access_witness :
  run_notebook recorded_session = inr recorded_notebook /\
  next_call is_code_to_function (calls recorded_notebook)
    = Some (Apply "utilsfn" mount_v3io).
Proof.
  split; [exact recorded_run |].
  exact (proj1 (c8_data_fabric_access recorded_session recorded_notebook
                  defaults recorded_run)).
Defined.

(** * Further properties of the pipeline function and of the run *)

(** ** When the pipeline function can be invoked *)

(** The pipeline function looks up [utilsfn], then [trainer_fn], then
    [v3io_cred], then [inference_function], and raises at the first one
    that is not bound to a value of the right kind. *)
Lemma pipeline_ops_cases (g : list (string * Value)) (a : PipelineArgs) :
  pipeline_ops g a =
    match assoc "utilsfn" g with
    | None => inl (NameError "utilsfn")
    | Some (VFn u) =>
        match assoc "trainer_fn" g with
        | None => inl (NameError "trainer_fn")
        | Some (VFn t) =>
            match assoc "v3io_cred" g with
            | None => inl (NameError "v3io_cred")
            | Some (VModifier m) =>
                match assoc "inference_function" g with
                | None => inl (NameError "inference_function")
                | Some (VFn i) =>
                    pipeline_ops [("utilsfn", VFn u); ("trainer_fn", VFn t);
                                  ("v3io_cred", VModifier m);
                                  ("inference_function", VFn i)] a
                | Some _ => inl (TypeError "inference_function")
                end
            | Some _ => inl (TypeError "v3io_cred")
            end
        | Some _ => inl (TypeError "trainer_fn")
        end
    | Some _ => inl (TypeError "utilsfn")
    end.
Proof.
  unfold pipeline_ops, hvd_pipeline, global_fn, global_modifier.
  destruct (assoc "utilsfn" g) as [[]|]; try reflexivity.
  destruct (assoc "trainer_fn" g) as [[]|]; try reflexivity.
  destruct (assoc "v3io_cred" g) as [[]|]; try reflexivity.
  destruct (assoc "inference_function" g) as [[]|]; reflexivity.
Qed.

Lemma pipeline_ops_inv (g : list (string * Value)) (a : PipelineArgs)
    (ops : list Step) :
  pipeline_ops g a = inr ops ->
  exists u t m i,
    assoc "utilsfn" g = Some (VFn u) /\
    assoc "trainer_fn" g = Some (VFn t) /\
    assoc "v3io_cred" g = Some (VModifier m) /\
    assoc "inference_function" g = Some (VFn i).
Proof.
  rewrite pipeline_ops_cases.
  destruct (assoc "utilsfn" g) as [[]|]; try discriminate.
  destruct (assoc "trainer_fn" g) as [[]|]; try discriminate.
  destruct (assoc "v3io_cred" g) as [[]|]; try discriminate.
  destruct (assoc "inference_function" g) as [[]|]; try discriminate.
  intros _. eexists _, _, _, _. repeat split.
Qed.

(** X1. An invocation of [hvd_pipeline] returns only if the four globals
    its body reads are bound: [utilsfn], [trainer_fn] and
    [inference_function] to function objects and [v3io_cred] to a modifier.
    The operation 'train' then carries the modifier [v3io_cred] is bound
    to, and 'download', 'label' and the deploy operation carry the function
    objects the other three names are bound to. *)
Theorem x1_pipeline_needs_four_globals
    (g : list (string * Value)) (a : PipelineArgs) (ops : list Step) :
  pipeline_ops g a = inr ops ->
  exists u t m i,
    assoc "utilsfn" g = Some (VFn u) /\
    assoc "trainer_fn" g = Some (VFn t) /\
    assoc "v3io_cred" g = Some (VModifier m) /\
    assoc "inference_function" g = Some (VFn i) /\
    map step_function ops = [u; u; t; i] /\
    map step_applied ops = [[]; []; [m]; []].
Proof.
  intros Hops.
  destruct (pipeline_ops_inv g a ops Hops) as (u & t & m & i & Hu & Ht & Hm & Hi).
  exists u, t, m, i.
  rewrite (pipeline_ops_bound g a u t i m Hu Ht Hm Hi) in Hops.
  injection Hops as <-.
  repeat split; assumption.
Qed.

Lemma x1_pipeline_needs_four_globals_witness :
  exists ops m,
    pipeline_ops (globals recorded_notebook) defaults = inr ops /\
    assoc "v3io_cred" (globals recorded_notebook) = Some (VModifier m) /\
    map step_applied ops = [[]; []; [m]; []].
Proof.
  assert (Hdef : exists ops,
            pipeline_ops (globals recorded_notebook) defaults = inr ops).
  { eexists. vm_compute. reflexivity. }
  destruct Hdef as (ops & Hops).
  destruct (x1_pipeline_needs_four_globals _ _ _ Hops)
    as (u & t & m & i & _ & _ & Hm & _ & _ & Happlied).
  exists ops, m.
  split; [exact Hops |]. split; [exact Hm | exact Happlied].
Defined.



(** X3. The pipeline function reads no other global than [utilsfn],
    [trainer_fn], [v3io_cred] and [inference_function]: binding any other
    variable, such as the globals [images_path] and [model_name] that share
    their names with parameters, changes neither the operations it declares
    nor the error it raises. *)
Theorem x3_other_globals_ignored
    (g : list (string * Value)) (a : PipelineArgs) (x : string) (v : Value) :
  x <> "utilsfn" -> x <> "trainer_fn" -> x <> "v3io_cred" ->
  x <> "inference_function" ->
  pipeline_ops ((x, v) :: g) a = pipeline_ops g a.
Proof.
  intros Hu Ht Hm Hi.
  rewrite (pipeline_ops_cases ((x, v) :: g)), (pipeline_ops_cases g).
  cbn [assoc].
  apply not_eq_sym in Hu, Ht, Hm, Hi.
  apply String.eqb_neq in Hu, Ht, Hm, Hi.
  rewrite Hu, Ht, Hm, Hi. reflexivity.
Qed.

Lemma x3_other_globals_ignored_witness :
  pipeline_ops (("images_path", VStr "/tmp") :: globals recorded_notebook) defaults
  = pipeline_ops (globals recorded_notebook) defaults.
Proof.
  apply x3_other_globals_ignored; discriminate.
Defined.

(** ** The shape of the pipeline *)

(** Whenever the pipeline function returns, it has declared four
    operations on the three function objects and the modifier. *)
Lemma pipeline_ops_four (g : list (string * Value)) (a : PipelineArgs)
    (ops : list Step) :
  pipeline_ops g a = inr ops ->
  exists u t m i,
    pipeline_ops [("utilsfn", VFn u); ("trainer_fn", VFn t);
                  ("v3io_cred", VModifier m);
                  ("inference_function", VFn i)] a = inr ops.
Proof.
  intros Hops.
  destruct (pipeline_ops_inv g a ops Hops) as (u & t & m & i & Hu & Ht & Hm & Hi).
  exists u, t, m, i.
  rewrite pipeline_ops_cases, Hu, Ht, Hm, Hi in Hops. exact Hops.
Qed.

Lemma recorded_pipeline_defined :
  exists ops, pipeline_ops (globals recorded_notebook) defaults = inr ops.
Proof. eexists. vm_compute. reflexivity. Qed.

(** Replaces a successful invocation by the four operations it declares. *)
Ltac declared Hops :=
  apply pipeline_ops_four in Hops;
  destruct Hops as (?u & ?t & ?m & ?i & Hops);
  cbv in Hops;
  injection Hops as Hops;
  subst.

(** X4. Every reference in the pipeline resolves: an operation runs only
    after operations declared before it, and each output it takes is an
    output that an earlier operation declares.  This holds for every
    invocation that returns, whatever the globals and the parameters. *)
Theorem x4_references_resolve
    (g : list (string * Value)) (a : PipelineArgs) (ops : list Step) :
  pipeline_ops g a = inr ops ->
  forall k s,
    nth_error ops k = Some s ->
    (forall j, In j (after_ops s) -> j < k) /\
    (forall j key,
       In (j, key) (step_references s) ->
       j < k /\
       exists earlier,
         nth_error ops j = Some earlier /\ In key (outputs earlier)).
Proof.
  intros Hops k s Hs. declared Hops.
  destruct k as [|[|[|[|k]]]]; cbn in Hs;
    try (injection Hs as <-); cbn.
  - split; [tauto |]. intros j key [].
  - split.
    + intros j [<- | []]. repeat constructor.
    + intros j key [].
  - split; [tauto |].
    intros j key [H | [H | []]]; injection H as <- <-;
      (split; [repeat constructor |]);
      eexists; (split; [reflexivity |]); cbn; tauto.
  - split; [tauto |].
    intros j key [H | []]. injection H as <- <-.
    split; [repeat constructor |].
    eexists. split; [reflexivity |]. cbn. tauto.
  - destruct k; discriminate.
Qed.

Lemma x4_references_resolve_witness :
  exists ops train,
    pipeline_ops (globals recorded_notebook) defaults = inr ops /\
    nth_error ops 2 = Some train /\
    forall j key, In (j, key) (step_references train) -> j < 2.
Proof.
  destruct recorded_pipeline_defined as (ops & Hops).
  pose proof (x4_references_resolve _ _ _ Hops) as Hres.
  assert (Htrain : exists train, nth_error ops 2 = Some train).
  { vm_compute in Hops. injection Hops as <-. eexists. reflexivity. }
  destruct Htrain as (train & Htrain).
  exists ops, train.
  split; [exact Hops |]. split; [exact Htrain |].
  intros j key Hin.
  exact (proj1 (proj2 (Hres 2 train Htrain) j key Hin)).
Defined.

(** X5. The four operations form a chain: the first one waits for
    nothing, and every later one waits for the one declared just before it,
    either by [.after()] or by taking one of its outputs.  So no two
    operations of the pipeline can run at the same time. *)
Theorem x5_operations_form_a_chain
    (g : list (string * Value)) (a : PipelineArgs) (ops : list Step) :
  pipeline_ops g a = inr ops ->
  (forall s, nth_error ops 0 = Some s -> dependencies s = []) /\
  (forall k s, nth_error ops (S k) = Some s -> In k (dependencies s)).
Proof.
  intros Hops. declared Hops. split.
  - intros s Hs. injection Hs as <-. reflexivity.
  - intros k s Hs.
    destruct k as [|[|[|k]]]; cbn in Hs;
      try (injection Hs as <-; cbn; tauto).
    destruct k; discriminate.
Qed.

Lemma x5_operations_form_a_chain_witness :
  exists ops,
    pipeline_ops (globals recorded_notebook) defaults = inr ops /\
    forall k s, nth_error ops (S k) = Some s -> In k (dependencies s).
Proof.
  destruct recorded_pipeline_defined as (ops & Hops).
  exists ops. split; [exact Hops |].
  exact (proj2 (x5_operations_form_a_chain _ _ _ Hops)).
Defined.

(** X6. The directories are passed on consistently.  The directory the
    'download' operation unpacks into (its parameter [target_dir]) is its
    own output path and the output path of 'label'; the directory 'label'
    indexes (its parameter [source_dir]) is the one 'train' reads its data
    from (its parameter [data_path]). *)
Theorem x6_directories_agree
    (g : list (string * Value)) (a : PipelineArgs) (ops : list Step) :
  pipeline_ops g a = inr ops ->
  exists download label train deploy,
    ops = [download; label; train; deploy] /\
    (exists dir,
       assoc "target_dir" (params download) = Some (Str dir) /\
       out_path download = Some dir /\
       out_path label = Some dir /\
       dir = images_path a) /\
    (exists src,
       assoc "source_dir" (params label) = Some (Str src) /\
       assoc "data_path" (params train) = Some (Str src) /\
       src = source_dir a) /\
    out_path train = None /\
    out_path deploy = None.
Proof.
  intros Hops. declared Hops.
  do 4 eexists. split; [reflexivity |].
  cbn. split; [| split].
  - eexists. repeat split.
  - eexists. repeat split.
  - split; reflexivity.
Qed.

Lemma x6_directories_agree_witness :
  exists ops download label train deploy,
    pipeline_ops (globals recorded_notebook) defaults = inr ops /\
    ops = [download; label; train; deploy] /\
    assoc "data_path" (params train)
      = Some (Str "/User/mlrun/examples/images/cats_n_dogs").
Proof.
  destruct recorded_pipeline_defined as (ops & Hops).
  destruct (x6_directories_agree _ _ _ Hops)
    as (download & label & train & deploy & Heq & _
        & (src & _ & Hdata & Hsrc) & _).
  exists ops, download, label, train, deploy.
  split; [exact Hops |]. split; [exact Heq |].
  rewrite Hdata, Hsrc. reflexivity.
Defined.

(** X7. The parameters of a run change values only.  Two invocations under
    the same globals declare operations with the same kinds, names, function
    objects, handlers, projects, parameter and input names, outputs,
    references to outputs of other operations (in params, inputs and
    models), dependencies and modifiers; only the output paths, the values
    that params and inputs take from the parameters, and the name the model
    is served under depend on the parameters. *)
Theorem x7_structure_independent_of_parameters
    (g : list (string * Value)) (a a' : PipelineArgs) (ops ops' : list Step) :
  pipeline_ops g a = inr ops ->
  pipeline_ops g a' = inr ops' ->
  map skeleton ops = map skeleton ops' /\
  map step_references ops = map step_references ops' /\
  map dependencies ops = map dependencies ops'.
Proof.
  intros Hops Hops'.
  destruct (pipeline_ops_inv g a ops Hops) as (u & t & m & i & Hu & Ht & Hm & Hi).
  rewrite (pipeline_ops_bound g a u t i m Hu Ht Hm Hi) in Hops.
  rewrite (pipeline_ops_bound g a' u t i m Hu Ht Hm Hi) in Hops'.
  injection Hops as <-. injection Hops' as <-.
  repeat split.
Qed.

Lemma x7_structure_independent_of_parameters_witness :
  exists ops ops',
    pipeline_ops (globals recorded_notebook) defaults = inr ops /\
    pipeline_ops (globals recorded_notebook)
      (mkArgs "http://example.org/a.zip" "/data" "/data/a" "/ckpt" "/m.h5" "m")
      = inr ops' /\
    map skeleton ops = map skeleton ops'.
Proof.
  destruct recorded_pipeline_defined as (ops & Hops).
  assert (Hops' : exists ops',
            pipeline_ops (globals recorded_notebook)
              (mkArgs "http://example.org/a.zip" "/data" "/data/a" "/ckpt"
                 "/m.h5" "m") = inr ops').
  { eexists. vm_compute. reflexivity. }
  destruct Hops' as (ops' & Hops').
  exists ops, ops'.
  split; [exact Hops |]. split; [exact Hops' |].
  exact (proj1 (x7_structure_independent_of_parameters _ _ _ _ _ Hops Hops')).
Defined.

(** ** The run as a whole *)

(** X8. What is compiled is what is submitted.  The notebook calls the
    compiler once and the pipelines client once, and both receive the same
    operations: the ones [hvd_pipeline] declares with its default
    parameters under the globals of the notebook.  Nothing that the
    pipeline function reads changes between the two calls. *)
Theorem x8_compiled_is_submitted (P : Platform) (nb : Notebook) :
  run_notebook P = inr nb ->
  exists ops,
    pipeline_ops (globals nb) defaults = inr ops /\
    filter is_compile (calls nb) = [Compile ops "hvd_pipeline.yaml"] /\
    filter is_create_run (calls nb) = [CreateRun ops [] "horovod1"].
Proof.
  intros Hrun.
  destruct (notebook_calls P nb Hrun) as (ops & Hops & ->).
  exists ops. split; [exact Hops |]. split; reflexivity.
Qed.

Lemma x8_compiled_is_submitted_witness :
  run_notebook recorded_session = inr recorded_notebook /\
  exists ops,
    filter is_compile (calls recorded_notebook)
      = [Compile ops "hvd_pipeline.yaml"] /\
    filter is_create_run (calls recorded_notebook)
      = [CreateRun ops [] "horovod1"].
Proof.
  split; [exact recorded_run |].
  destruct (x8_compiled_is_submitted recorded_session recorded_notebook
              recorded_run) as (ops & _ & Hc & Hs).
  exists ops. split; [exact Hc | exact Hs].
Defined.

(** X10. The globals that cell 3 binds agree with the defaults of the
    pipeline parameters of the same names, which shadow them inside
    [hvd_pipeline]: [images_path], the join of [base_dir] and 'images', is
    the default of the parameter [images_path], and [model_name] is the
    default of the parameter [model_name]. *)
Theorem x10_globals_agree_with_defaults (P : Platform) (nb : Notebook) :
  run_notebook P = inr nb ->
  exists base,
    global "base_dir" nb = Some (VStr base) /\
    global "images_path" nb = Some (VStr (os_path_join base "images")) /\
    os_path_join base "images" = images_path defaults /\
    global "model_name" nb = Some (VStr (model_name defaults)).
Proof.
  intros Hrun. ran Hrun d Hd.
  eexists. repeat split.
Qed.

Lemma x10_globals_agree_with_defaults_witness :
  run_notebook recorded_session = inr recorded_notebook /\
  global "images_path" recorded_notebook
    = Some (VStr "/User/mlrun/examples/images").
Proof.
  split; [exact recorded_run |].
  destruct (x10_globals_agree_with_defaults recorded_session recorded_notebook
              recorded_run) as (base & _ & Himages & Hjoin & _).
  rewrite Himages, Hjoin. reflexivity.
Defined.

(** X11. The run id and the run database influence only the end of the
    run.  Two runs whose function database holds the same descriptor make
    the same first fourteen calls, up to and including the submission and
    the connection to the run database, and end with the same globals
    except for [run_result]. *)
Theorem x11_run_db_affects_only_the_query
    (P P' : Platform) (nb nb' : Notebook) :
  run_notebook P = inr nb ->
  run_notebook P' = inr nb' ->
  function_db P "db://horovod-trainer" = function_db P' "db://horovod-trainer" ->
  firstn 14 (calls nb) = firstn 14 (calls nb') /\
  length (calls nb) = 16 /\
  length (calls nb') = 16 /\
  forall x, x <> "run_result" -> global x nb = global x nb'.
Proof.
  intros Hrun Hrun' Hdb.
  ran Hrun d Hd. ran Hrun' d' Hd'.
  unfold trainer_url in Hd, Hd'.
  rewrite Hd, Hd' in Hdb. injection Hdb as <-.
  repeat split.
  intros x Hx. unfold global. cbn [globals assoc].
  apply String.eqb_neq in Hx. rewrite Hx. reflexivity.
Qed.

Lemma x11_run_db_affects_only_the_query_witness :
  run_notebook recorded_session = inr recorded_notebook /\
  exists nb',
    run_notebook (mkPlatform (function_db recorded_session) "run-2"
                    (fun _ _ => [])) = inr nb' /\
    firstn 14 (calls recorded_notebook) = firstn 14 (calls nb').
Proof.
  split; [exact recorded_run |].
  assert (Hrun' : exists nb',
            run_notebook (mkPlatform (function_db recorded_session) "run-2"
                            (fun _ _ => [])) = inr nb').
  { eexists. vm_compute. reflexivity. }
  destruct Hrun' as (nb' & Hrun').
  exists nb'. split; [exact Hrun' |].
  exact (proj1 (x11_run_db_affects_only_the_query recorded_session _ _ _
                  recorded_run Hrun' eq_refl)).
Defined.
